(** * walletApi: the wallet and payment-settings gateway of src/lib/walletApi.js

    The module forwards eleven operations to a remote backend through the
    [supabase] client.  Each operation is an [async] function whose body is a
    [try { ... } catch (error) { console.error(label, error); throw error; }].

    The embedding below follows the source line by line:
    - JavaScript values are the inductive [Js.Val]; objects are finite maps
      from property names to values;
    - the client is an interface ([Backend]): a request is answered by a
      [{data, error}] record and may change the backend's state;
    - an operation is a computation in a state-and-exception monad whose
      state holds the backend and the trace of observable events (requests
      with their replies, and [console.error] entries), in program order. *)

From stdpp Require Import gmap strings list fin_maps pretty.
From Stdlib Require Import ZArith.

Set Warnings "-register-all".
Open Scope Z_scope.

(** ** JavaScript values *)

Module Js.

(** JSON data plus [undefined] and [NaN].  Numbers are only ever forwarded
    and tested for truthiness by this module, so integers stand for them. *)
Inductive Val : Type :=
| Undefined
| Null
| Bool (b : bool)
| Num (n : Z)
| NaN
| Str (s : string)
| Arr (l : list Val)
| Obj (m : gmap string Val).

(** What a [throw] carries: a value (here always the backend's [error]), or
    the [TypeError] raised by a property access on [null] or [undefined]. *)
Inductive Thrown : Type :=
| Cause (e : Val)
| TypeError.

(** ToBoolean. *)
Definition truthy (v : Val) : bool :=
  match v with
  | Undefined | Null | NaN => false
  | Bool b => b
  | Num n => negb (n =? 0)
  | Str s => negb (String.eqb s "")
  | Arr _ | Obj _ => true
  end.

(** [a || b]. *)
Definition or (a b : Val) : Val := if truthy a then a else b.

(** A parameter with a default value, [(x = d) => ...]: the default is
    used exactly when the argument is [undefined]. *)
Definition param (x d : Val) : Val :=
  match x with
  | Undefined => d
  | _ => x
  end.

(** [v.k] for the property names this module reads ([limit], [offset],
    [type], [status], [settings], [payment], [id]): none of them is
    defined on a primitive or on an array. *)
Definition get (v : Val) (k : string) : Thrown + Val :=
  match v with
  | Undefined | Null => inl TypeError
  | Obj m => inr (default Undefined (m !! k))
  | _ => inr Undefined
  end.

(** The own enumerable properties copied by [{...v}]: those of an
    object; the indexed elements of an array or the characters of a
    string; nothing for the other primitives, [null] and [undefined]. *)
Definition indexed (l : list Val) : gmap string Val :=
  list_to_map (imap (fun i x => (pretty i, x)) l).

Definition chars (s : string) : list Val :=
  (fun c => Str (String c EmptyString)) <$> String.list_ascii_of_string s.

Definition spread (v : Val) : gmap string Val :=
  match v with
  | Obj m => m
  | Arr l => indexed l
  | Str s => indexed (chars s)
  | _ => ∅
  end.

(** Object literals [{k1: v1, ..., kn: vn}], written in source order. *)
Definition literal (fields : list (string * Val)) : Val :=
  Obj (foldl (fun m kv => <[kv.1 := kv.2]> m) ∅ fields).

End Js.

Import Js.

(** ** The backend client

    [supabase.rpc(fn, args)], [supabase.from(t).select(c)],
    [supabase.from(t).select(c).single()] and
    [supabase.from(t).update(v).eq(col, x)] are the four request shapes the
    module builds.  Awaiting any of them yields a [{data, error}] record. *)

Inductive Request : Type :=
| Rpc (fn : string) (args : Val)
| Select (table columns : string)
| SelectSingle (table columns : string)
| UpdateEq (table : string) (values : Val) (column : string) (value : Val).

Record Response : Type := { data : Val; error : Val }.

Class Backend (B : Type) : Type :=
  serve : Request -> B -> Response * B.

(** ** Observable events, in program order *)

Inductive Event : Type :=
| Exchange (req : Request) (resp : Response)
| Logged (label : string) (e : Thrown).

Record World (B : Type) : Type := { backend : B; events : list Event }.
Arguments backend {B} _.
Arguments events {B} _.
Arguments Build_World {B} _ _.

Definition start {B} (b : B) : World B := {| backend := b; events := [] |}.

(** The requests sent, oldest first. *)
Definition requests (evs : list Event) : list Request :=
  omap (fun ev => match ev with Exchange r _ => Some r | Logged _ _ => None end) evs.

(** The [console.error] entries, oldest first. *)
Definition logs (evs : list Event) : list (string * Thrown) :=
  omap (fun ev => match ev with Logged l e => Some (l, e) | Exchange _ _ => None end) evs.

(** ** The monad of operations *)

Inductive Outcome (A : Type) : Type :=
| Returned (a : A)
| Threw (t : Thrown).
Arguments Returned {A} _.
Arguments Threw {A} _.

Definition M (B A : Type) : Type := World B -> Outcome A * World B.

Section Monad.
Context {B : Type}.

Definition ret {A} (a : A) : M B A := fun w => (Returned a, w).

Definition bind {A C} (m : M B A) (k : A -> M B C) : M B C :=
  fun w =>
    match m w with
    | (Returned a, w') => k a w'
    | (Threw t, w') => (Threw t, w')
    end.

Definition throw {A} (t : Thrown) : M B A := fun w => (Threw t, w).

(** [try { m } catch (e) { h e }]. *)
Definition try_catch {A} (m : M B A) (h : Thrown -> M B A) : M B A :=
  fun w =>
    match m w with
    | (Returned a, w') => (Returned a, w')
    | (Threw t, w') => h t w'
    end.

(** [console.error(label, e)]. *)
Definition console_error (label : string) (e : Thrown) : M B unit :=
  fun w => (Returned tt,
            {| backend := backend w; events := events w ++ [Logged label e] |}).

(** A property access, which may raise [TypeError]. *)
Definition prop (v : Val) (k : string) : M B Val :=
  match get v k with
  | inl t => throw t
  | inr x => ret x
  end.

(** [await] of a request built on the client. *)
Definition await {client : Backend B} (req : Request) : M B Response :=
  fun w =>
    let (resp, b') := serve req (backend w) in
    (Returned resp,
     {| backend := b'; events := events w ++ [Exchange req resp] |}).
End Monad.

(** stdpp's monad notations: [x ← m; k] and [m;; k]. *)
#[global] Instance M_ret {B} : MRet (M B) := fun A => @ret B A.
#[global] Instance M_bind {B} : MBind (M B) := fun A C k m => @bind B A C m k.

(** ** The operations of walletApi.js *)

Section Operations.
Context {B : Type} {client : Backend B}.

(** The [catch] block shared by every operation. *)
Definition log_and_rethrow {A} (label : string) (e : Thrown) : M B A :=
  console_error label e;; throw e.

(** [if (error) throw error; return data;] *)
Definition data_or_throw (r : Response) : M B Val :=
  if truthy (error r) then throw (Cause (error r)) else mret (data r).

Definition getWalletBalance (userId : Val) : M B Val :=
  try_catch
    (r ← await (Rpc "get_wallet_balance" (literal [("p_user_id", userId)]));
     data_or_throw r)
    (log_and_rethrow "Error fetching wallet balance:").

(** [options = {}]; the four optional fields are read inside the [try],
    before the request is built. *)
Definition getWalletTransactions (walletId options : Val) : M B Val :=
  let options := param options (literal []) in
  try_catch
    (limit ← prop options "limit";
     offset ← prop options "offset";
     type ← prop options "type";
     status ← prop options "status";
     r ← await (Rpc "get_wallet_transactions"
                  (literal [("p_wallet_id", walletId);
                            ("p_limit", or limit (Num 10));
                            ("p_offset", or offset (Num 0));
                            ("p_type", or type Null);
                            ("p_status", or status Null)]));
     data_or_throw r)
    (log_and_rethrow "Error fetching wallet transactions:").

(** The procedure is called without arguments; when it reports an error
    the table is queried directly. *)
Definition getVendorWallets : M B Val :=
  try_catch
    (r ← await (Rpc "get_all_vendor_wallets" Undefined);
     if truthy (error r) then
       console_error "Error using RPC function:" (Cause (error r));;
       q ← await (Select "vendor_wallets" "*");
       if truthy (error q) then throw (Cause (error q))
       else mret (or (data q) (Arr []))
     else mret (or (data r) (Arr [])))
    (log_and_rethrow "Error fetching vendor wallets:").

Definition getDriverWallets : M B Val :=
  try_catch
    (r ← await (Rpc "get_all_driver_wallets" Undefined);
     if truthy (error r) then
       console_error "Error using RPC function:" (Cause (error r));;
       q ← await (Select "driver_wallets" "*");
       if truthy (error q) then throw (Cause (error q))
       else mret (or (data q) (Arr []))
     else mret (or (data r) (Arr [])))
    (log_and_rethrow "Error fetching driver wallets:").

(** The default of the [description] parameter of both charge operations. *)
Definition default_description : Val := Str "شحن رصيد".

Definition chargeVendorWallet (vendorId amount description : Val) : M B Val :=
  let description := param description default_description in
  try_catch
    (r ← await (Rpc "charge_vendor_wallet"
                  (literal [("p_vendor_id", vendorId);
                            ("p_amount", amount);
                            ("p_description", description)]));
     data_or_throw r)
    (log_and_rethrow "Error charging vendor wallet:").

Definition chargeDriverWallet (driverId amount description : Val) : M B Val :=
  let description := param description default_description in
  try_catch
    (r ← await (Rpc "charge_driver_wallet"
                  (literal [("p_driver_id", driverId);
                            ("p_amount", amount);
                            ("p_description", description)]));
     data_or_throw r)
    (log_and_rethrow "Error charging driver wallet:").

Definition getFinancialStats : M B Val :=
  try_catch
    (r ← await (Rpc "get_financial_summary" Undefined);
     data_or_throw r)
    (log_and_rethrow "Error fetching financial stats:").

Definition getPaymentSettings : M B Val :=
  try_catch
    (r ← await (SelectSingle "app_settings" "settings");
     if truthy (error r) then throw (Cause (error r))
     else
       settings ← prop (data r) "settings";
       payment ← prop settings "payment";
       mret (or payment (literal [])))
    (log_and_rethrow "Error fetching payment settings:").

(** Read, rebuild [{...currentData.settings, payment: settings}], write
    back with the filter [.eq('id', currentData.id)]. *)
Definition updatePaymentSettings (settings : Val) : M B Val :=
  try_catch
    (cur ← await (SelectSingle "app_settings" "settings");
     if truthy (error cur) then throw (Cause (error cur))
     else
       current ← prop (data cur) "settings";
       let updatedSettings := Obj (<["payment" := settings]> (spread current)) in
       id ← prop (data cur) "id";
       r ← await (UpdateEq "app_settings"
                    (literal [("settings", updatedSettings)]) "id" id);
       if truthy (error r) then throw (Cause (error r))
       else mret (Bool true))
    (log_and_rethrow "Error updating payment settings:").

Definition getVendorWallet (vendorId : Val) : M B Val :=
  try_catch
    (r ← await (Rpc "get_vendor_wallet" (literal [("p_vendor_id", vendorId)]));
     data_or_throw r)
    (log_and_rethrow "Error fetching vendor wallet:").

Definition getDriverWallet (driverId : Val) : M B Val :=
  try_catch
    (r ← await (Rpc "get_driver_wallet" (literal [("p_driver_id", driverId)]));
     data_or_throw r)
    (log_and_rethrow "Error fetching driver wallet:").

(** The default export: the table of the eleven operations.  A call is an
    entry of the table with its arguments. *)
Inductive Op : Type :=
| GetWalletBalance (userId : Val)
| GetWalletTransactions (walletId options : Val)
| GetVendorWallets
| GetDriverWallets
| ChargeVendorWallet (vendorId amount description : Val)
| ChargeDriverWallet (driverId amount description : Val)
| GetFinancialStats
| GetPaymentSettings
| UpdatePaymentSettings (settings : Val)
| GetVendorWallet (vendorId : Val)
| GetDriverWallet (driverId : Val).

Definition invoke (op : Op) : M B Val :=
  match op with
  | GetWalletBalance u => getWalletBalance u
  | GetWalletTransactions w o => getWalletTransactions w o
  | GetVendorWallets => getVendorWallets
  | GetDriverWallets => getDriverWallets
  | ChargeVendorWallet v a d => chargeVendorWallet v a d
  | ChargeDriverWallet v a d => chargeDriverWallet v a d
  | GetFinancialStats => getFinancialStats
  | GetPaymentSettings => getPaymentSettings
  | UpdatePaymentSettings s => updatePaymentSettings s
  | GetVendorWallet v => getVendorWallet v
  | GetDriverWallet d => getDriverWallet d
  end.
End Operations.

(** The string each operation passes to [console.error] in its [catch]. *)
Definition label (op : Op) : string :=
  match op with
  | GetWalletBalance _ => "Error fetching wallet balance:"
  | GetWalletTransactions _ _ => "Error fetching wallet transactions:"
  | GetVendorWallets => "Error fetching vendor wallets:"
  | GetDriverWallets => "Error fetching driver wallets:"
  | ChargeVendorWallet _ _ _ => "Error charging vendor wallet:"
  | ChargeDriverWallet _ _ _ => "Error charging driver wallet:"
  | GetFinancialStats => "Error fetching financial stats:"
  | GetPaymentSettings => "Error fetching payment settings:"
  | UpdatePaymentSettings _ => "Error updating payment settings:"
  | GetVendorWallet _ => "Error fetching vendor wallet:"
  | GetDriverWallet _ => "Error fetching driver wallet:"
  end.

(** The operations whose first request is [supabase.rpc]. *)
Definition procedure_backed (op : Op) : bool :=
  match op with
  | GetPaymentSettings | UpdatePaymentSettings _ => false
  | _ => true
  end.

(** The two list operations, with their procedure and fallback table. *)
Definition wallet_lists : list (Op * string * string) :=
  [ (GetVendorWallets, "get_all_vendor_wallets", "vendor_wallets");
    (GetDriverWallets, "get_all_driver_wallets", "driver_wallets") ].

Definition lists_wallets (op : Op) : bool :=
  match op with
  | GetVendorWallets | GetDriverWallets => true
  | _ => false
  end.

(** An argument list the operation can read: [options] may be omitted but
    not [null], whose fields cannot be read. *)
Definition well_formed (op : Op) : bool :=
  match op with
  | GetWalletTransactions _ Null => false
  | _ => true
  end.

(** The optional fields of [getWalletTransactions]: the option read, the
    procedure argument it feeds, and the default. *)
Definition transaction_options : list (string * string * Val) :=
  [ ("limit", "p_limit", Num 10);
    ("offset", "p_offset", Num 0);
    ("type", "p_type", Null);
    ("status", "p_status", Null) ].

(** The request/reply pairs of a trace, oldest first. *)
Definition exchanges (evs : list Event) : list (Request * Response) :=
  omap (fun ev => match ev with
                  | Exchange r a => Some (r, a)
                  | Logged _ _ => None
                  end) evs.

(** ** Two backends to run the operations on *)

(** A scripted backend answers the requests with the replies of a list, in
    order, whatever is asked; once the script is used up every request is
    refused. *)
Module Scripted.

Definition ok (payload : Val) : Response := {| data := payload; error := Null |}.

Definition failed (cause : Val) : Response := {| data := Null; error := cause |}.

Definition exhausted : Val := literal [("message", Str "no reply scripted")].

#[export] Instance scripted : Backend (list Response) :=
  fun _ script =>
    match script with
    | [] => (failed exhausted, [])
    | r :: rest => (r, rest)
    end.

End Scripted.

(** A table store stands for a deployment without stored procedures: every
    table is a list of rows, a row a finite map from column names to values.
    It follows the query builder's contract: [select(c)] returns the rows
    cut down to the column [c] (all columns for ['*']), [single()] wants
    exactly one row, [update(v).eq(col, x)] overwrites the columns of [v] in
    the rows whose [col] reads as [x]; filter values travel as text. *)
Module Store.

Definition Row : Type := gmap string Val.

Definition Tables : Type := gmap string (list Row).

Definition refusal (code : string) : Response :=
  {| data := Null; error := literal [("code", Str code)] |}.

Definition project (columns : string) (row : Row) : Row :=
  if String.eqb columns "*" then row
  else match row !! columns with
       | Some v => {[ columns := v ]}
       | None => ∅
       end.

(** The text of a scalar, as it is written into a filter. *)
Definition text (v : Val) : option string :=
  match v with
  | Undefined => Some "undefined"
  | Null => Some "null"
  | Bool true => Some "true"
  | Bool false => Some "false"
  | Num n => Some (pretty n)
  | NaN => Some "NaN"
  | Str s => Some s
  | Arr _ | Obj _ => None
  end.

Definition matches (column : string) (x : Val) (row : Row) : bool :=
  match row !! column ≫= text, text x with
  | Some a, Some b => String.eqb a b
  | _, _ => false
  end.

Definition overwrite (values : Val) (column : string) (x : Val) (row : Row) : Row :=
  if matches column x row then spread values ∪ row else row.

#[export] Instance store : Backend Tables :=
  fun req tables =>
    match req with
    | Rpc _ _ => (refusal "PGRST202", tables)
    | Select t c =>
        match tables !! t with
        | Some rows => ({| data := Arr (Obj ∘ project c <$> rows); error := Null |}, tables)
        | None => (refusal "42P01", tables)
        end
    | SelectSingle t c =>
        match tables !! t with
        | Some [row] => ({| data := Obj (project c row); error := Null |}, tables)
        | Some _ => (refusal "PGRST116", tables)
        | None => (refusal "42P01", tables)
        end
    | UpdateEq t v column x =>
        match tables !! t with
        | Some rows =>
            ({| data := Null; error := Null |},
             <[t := overwrite v column x <$> rows]> tables)
        | None => (refusal "42P01", tables)
        end
    end.

End Store.

(** The name under which the default export lists an operation. *)
Definition name (op : Op) : string :=
  match op with
  | GetWalletBalance _ => "getWalletBalance"
  | GetWalletTransactions _ _ => "getWalletTransactions"
  | GetVendorWallets => "getVendorWallets"
  | GetDriverWallets => "getDriverWallets"
  | ChargeVendorWallet _ _ _ => "chargeVendorWallet"
  | ChargeDriverWallet _ _ _ => "chargeDriverWallet"
  | GetFinancialStats => "getFinancialStats"
  | GetPaymentSettings => "getPaymentSettings"
  | UpdatePaymentSettings _ => "updatePaymentSettings"
  | GetVendorWallet _ => "getVendorWallet"
  | GetDriverWallet _ => "getDriverWallet"
  end.

(** ** Sample data *)

Module Example.
Import Scripted Store.

Definition old_payment : Val := literal [("x", Num 1)].

Definition new_payment : Val := literal [("y", Num 2)].

(** The settings [{a: 1, payment: {x: 1}}]. *)
Definition settings : gmap string Val :=
  {[ "a" := Num 1; "payment" := old_payment ]}.

(** The singleton row of [app_settings]. *)
Definition document : Row :=
  {[ "id" := Num 1; "settings" := Obj settings ]}.

Definition wallet : Row :=
  {[ "vendor_id" := Str "V1"; "balance" := Num 50 ]}.

(** A deployment with the settings row and one vendor wallet, and neither
    stored procedures nor a [driver_wallets] table. *)
Definition deployment : Tables :=
  {[ "app_settings" := [document]; "vendor_wallets" := [wallet] ]}.

Definition receipt : Val := literal [("transaction_id", Str "T1")].

End Example.

(** ** Notions used to state the properties *)

(** A payload that holds no row: an empty array, or no array at all. *)
Definition zero_rows (payload : Val) : Prop :=
  payload = Arr [] ∨ payload = Null ∨ payload = Undefined.

Section Fallback.
Context {B : Type} {client : Backend B}.

(** The trace a list operation may leave when started on [b]: the procedure
    call alone when it succeeds; otherwise the procedure call, the
    [console.error] entry for its failure and then one direct query, after
    which the operation either returns or logs and rethrows the query's
    error. *)
Definition single_fallback_hop (op : Op) (fn table : string) (b : B) : Prop :=
  let primary := Rpc fn Undefined in
  let fallback := Select table "*" in
  let r := (serve primary b).1 in
  let q := (serve fallback (serve primary b).2).1 in
  let run := invoke op (start b) in
  if truthy (error r) then
    if truthy (error q) then
      events run.2 =
        [Exchange primary r; Logged "Error using RPC function:" (Cause (error r));
         Exchange fallback q; Logged (label op) (Cause (error q))] ∧
      run.1 = Threw (Cause (error q))
    else
      events run.2 =
        [Exchange primary r; Logged "Error using RPC function:" (Cause (error r));
         Exchange fallback q] ∧
      run.1 = Returned (or (data q) (Arr []))
  else
    events run.2 = [Exchange primary r] ∧
    run.1 = Returned (or (data r) (Arr [])).
End Fallback.

(** A request that changes the backend's data. *)
Definition is_write (req : Request) : bool :=
  match req with
  | UpdateEq _ _ _ _ => true
  | _ => false
  end.

(** The most requests an operation's body can send: two for the list
    operations (procedure, then direct query) and for the settings update
    (read, then write), one for the others. *)
Definition request_budget (op : Op) : nat :=
  match op with
  | GetVendorWallets | GetDriverWallets | UpdatePaymentSettings _ => 2
  | _ => 1
  end.

(** The operations that end in [... || []] or [... || {}]. *)
Definition normalises_result (op : Op) : bool :=
  match op with
  | GetVendorWallets | GetDriverWallets | GetPaymentSettings => true
  | _ => false
  end.


(** * Properties *)

Ltac unfold_monad :=
  unfold log_and_rethrow, data_or_throw, try_catch, prop, await, console_error,
    throw, mbind, M_bind, bind, mret, M_ret, ret, start in *.

Ltac unfold_ops :=
  unfold invoke, getWalletBalance, getWalletTransactions, getVendorWallets,
    getDriverWallets, chargeVendorWallet, chargeDriverWallet, getFinancialStats,
    getPaymentSettings, updatePaymentSettings, getVendorWallet, getDriverWallet in *.

(** Projections and defaults only: object literals and maps stay folded. *)
Ltac reduce :=
  cbn [fst snd backend events error data param] in *.

(** One case split on what the run depends on: a property access, a reply,
    or the truthiness of a reply's [error]. *)
Ltac branch :=
  match goal with
  | |- context [match get ?v ?k with _ => _ end] => destruct (get v k) eqn:?
  | |- context [let (_, _) := serve ?r ?b in _] => destruct (serve r b) as [? ?] eqn:?
  | |- context [if truthy ?e then _ else _] => destruct (truthy e) eqn:?
  end.

Ltac run := unfold_ops; unfold_monad; reduce; repeat (branch; reduce).

(** ** Values *)

Lemma get_empty_literal k : get (literal []) k = inr Undefined.
Proof. reflexivity. Qed.

Lemma get_obj m k : get (Obj m) k = inr (default Undefined (m !! k)).
Proof. reflexivity. Qed.

Lemma get_field m k v : m !! k = Some v → get (Obj m) k = inr v.
Proof. intros Hk. by rewrite get_obj, Hk. Qed.

Lemma get_missing m k : m !! k = None → get (Obj m) k = inr Undefined.
Proof. intros Hk. by rewrite get_obj, Hk. Qed.

Lemma or_zero_rows payload : zero_rows payload → or payload (Arr []) = Arr [].
Proof. by intros [-> | [-> | ->]]. Qed.

Lemma or_falsy a d : truthy a = false → or a d = d.
Proof. unfold or. by intros ->. Qed.

(** The [console.error] label tells the operations apart. *)
Lemma label_identifies_operation op op' : label op = label op' → name op = name op'.
Proof. destruct op, op'; cbn [label name]; intros Heq; first [reflexivity | discriminate Heq]. Qed.

(** The table store hands back the selected column and nothing else. *)
Lemma project_other_column (c k : string) (row : Store.Row) :
  c ≠ "*" → k ≠ c → Store.project c row !! k = None.
Proof.
  intros Hstar Hk. unfold Store.project.
  destruct (String.eqb_spec c "*") as [-> | _]; [done |].
  destruct (row !! c); [by apply lookup_singleton_ne | apply lookup_empty].
Qed.

(** ** Operations on an arbitrary backend *)

Section Generic.
Context {B : Type} {client : Backend B}.

(** Both list operations leave the trace [single_fallback_hop] describes. *)
Lemma list_operation_trace (op : Op) (fn table : string) (b : B) :
  (op, fn, table) ∈ wallet_lists → single_fallback_hop op fn table b.
Proof.
  unfold wallet_lists. rewrite !elem_of_cons, elem_of_nil.
  intros [[= -> -> ->] | [[= -> -> ->] | []]].
  all: unfold single_fallback_hop; cbv zeta.
  all: unfold_ops; unfold_monad; reduce.
  all: destruct (serve (Rpc _ Undefined) b) as [r b1]; reduce.
  all: destruct (truthy (error r)); reduce; [| by split].
  all: destruct (serve (Select _ "*") b1) as [q b2]; reduce.
  all: destruct (truthy (error q)); reduce; by split.
Qed.

(** Read off the trace: the direct query is among the requests sent exactly
    when the procedure call was answered with an error, and no run sends
    more than two requests. *)
Lemma fallback_sent_iff_primary_failed (op : Op) (fn table : string) (b : B) :
  (op, fn, table) ∈ wallet_lists →
  (Select table "*" ∈ requests (events (invoke op (start b)).2) ↔
   truthy (error (serve (Rpc fn Undefined) b).1) = true) ∧
  (length (requests (events (invoke op (start b)).2)) ≤ 2)%nat.
Proof.
  intros Hin. pose proof (list_operation_trace _ _ _ b Hin) as Hrun.
  unfold single_fallback_hop in Hrun. cbv zeta in Hrun.
  destruct (truthy (error (serve (Rpc fn Undefined) b).1)).
  - destruct (truthy (error _)) in Hrun; destruct Hrun as [-> _];
      cbn [requests omap list_omap length]; (split; [| lia]);
      (split; [done | intros _; apply list_elem_of_further, list_elem_of_here]).
  - destruct Hrun as [-> _]. cbn [requests omap list_omap length]. split; [| lia].
    split; [| done]. intros Hsent. apply list_elem_of_singleton in Hsent. done.
Qed.


(** The two requests of [updatePaymentSettings] once the document is
    fetched: the write carries [{settings: {...current, payment}}] and is
    filtered on the [id] property of the fetched data. *)
Lemma updatePaymentSettings_requests
    (settings current : Val) (b b1 : B) (cur : Response) (row : gmap string Val) :
  serve (SelectSingle "app_settings" "settings") b = (cur, b1) →
  truthy (error cur) = false →
  data cur = Obj row →
  row !! "settings" = Some current →
  requests (events (updatePaymentSettings settings (start b)).2) =
    [SelectSingle "app_settings" "settings";
     UpdateEq "app_settings"
       (literal [("settings", Obj (<["payment" := settings]> (spread current)))])
       "id" (default Undefined (row !! "id"))].
Proof.
  intros Hfetch Hok Hdata Hcurrent.
  unfold_ops; unfold_monad; reduce. rewrite Hfetch; reduce. rewrite Hok.
  rewrite Hdata, (get_field _ _ _ Hcurrent), get_obj.
  repeat (branch; reduce); reflexivity.
Qed.

(** C1. Whatever settings mapping [m] the fetch returns and whatever the new
    payment value, the settings written back are [m] with the section
    [payment] set to the new value: the new value is stored as it is (nothing
    of the old section is kept), and every other section reads as before. *)
Theorem updatePaymentSettings_replaces_payment_only
    (settings : Val) (b b1 : B) (cur : Response) (row m : gmap string Val) :
  serve (SelectSingle "app_settings" "settings") b = (cur, b1) →
  truthy (error cur) = false →
  data cur = Obj row →
  row !! "settings" = Some (Obj m) →
  ∃ written key,
    requests (events (updatePaymentSettings settings (start b)).2) =
      [SelectSingle "app_settings" "settings";
       UpdateEq "app_settings" (literal [("settings", Obj written)]) "id" key] ∧
    written = <["payment" := settings]> m ∧
    written !! "payment" = Some settings ∧
    (∀ section, section ≠ "payment" → written !! section = m !! section).
Proof.
  intros Hfetch Hok Hdata Hsettings.
  exists (<["payment" := settings]> m), (default Undefined (row !! "id")).
  split; [| split; [reflexivity | split]].
  - by apply (updatePaymentSettings_requests settings (Obj m) b b1 cur row).
  - apply lookup_insert_eq.
  - intros k Hk. by apply lookup_insert_ne.
Qed.

(** C3. For [getVendorWallets] and [getDriverWallets]: when the procedure
    call fails and the direct query succeeds, the rows of the query are
    returned; and when the path that succeeds (procedure or query) has no
    rows, the operation returns the empty array. *)
Theorem fallback_rows_returned (op : Op) (fn table : string) (b : B) :
  (op, fn, table) ∈ wallet_lists →
  let r := (serve (Rpc fn Undefined) b).1 in
  let q := (serve (Select table "*") (serve (Rpc fn Undefined) b).2).1 in
  let out := (invoke op (start b)).1 in
  (truthy (error r) = true → truthy (error q) = false →
   ∀ rows, data q = Arr rows → out = Returned (Arr rows)) ∧
  (truthy (error r) = true → truthy (error q) = false →
   zero_rows (data q) → out = Returned (Arr [])) ∧
  (truthy (error r) = false →
   zero_rows (data r) → out = Returned (Arr [])).
Proof.
  intros Hin. pose proof (list_operation_trace _ _ _ b Hin) as Hrun.
  unfold single_fallback_hop in Hrun. cbv zeta in *.
  repeat split.
  - intros Hr Hq rows Hrows. rewrite Hr, Hq in Hrun.
    destruct Hrun as [_ ->]. by rewrite Hrows.
  - intros Hr Hq Hzero. rewrite Hr, Hq in Hrun.
    destruct Hrun as [_ ->]. by rewrite or_zero_rows.
  - intros Hr Hzero. rewrite Hr in Hrun.
    destruct Hrun as [_ ->]. by rewrite or_zero_rows.
Qed.

(** C4, as amended. Every procedure-backed operation, on arguments it can
    read, first sends its procedure call; when that call succeeds, the
    operation returns the payload as it is (also [null] or empty), except
    that the two list operations return [payload || []]. *)
Theorem procedure_payload_returned (op : Op) (b : B) :
  procedure_backed op = true →
  well_formed op = true →
  ∃ fn args resp,
    head (exchanges (events (invoke op (start b)).2)) = Some (Rpc fn args, resp) ∧
    (truthy (error resp) = false →
     (invoke op (start b)).1 =
       Returned (if lists_wallets op then or (data resp) (Arr []) else data resp)).
Proof.
  intros Hproc Hwf.
  destruct op as [| ? options | | | | | | | | |]; try discriminate Hproc.
  2: destruct options; try discriminate Hwf.
  all: unfold_ops; unfold_monad; reduce; rewrite ?get_empty_literal; cbn [get].
  all: repeat (branch; reduce).
  all: cbn [app exchanges omap head lists_wallets].
  all: eexists _, _, _; (split; [reflexivity | intros Hok; first [congruence | reflexivity]]).
Qed.

(** C5. For every operation: when the last request it sent was answered with
    an error, the operation throws that very error, returns no value, and
    the last thing it did was to log the error under its own label. *)
Theorem failure_logged_and_rethrown (op : Op) (b : B) (req : Request) (resp : Response) :
  last (exchanges (events (invoke op (start b)).2)) = Some (req, resp) →
  truthy (error resp) = true →
  (invoke op (start b)).1 = Threw (Cause (error resp)) ∧
  (∀ payload, (invoke op (start b)).1 ≠ Returned payload) ∧
  last (events (invoke op (start b)).2) = Some (Logged (label op) (Cause (error resp))).
Proof.
  destruct op; run.
  all: cbn [app exchanges omap last label]; intros Hlast Hfail.
  all: try discriminate Hlast.
  all: try (injection Hlast as <- <-).
  all: try congruence.
  all: repeat split; try reflexivity; intros payload; discriminate.
Qed.

(** C6. On every backend, [getVendorWallets] and [getDriverWallets] send the
    direct query exactly when the procedure call has come back with an
    error, after logging it, and send nothing after the query: if the query
    fails too, the operation logs and throws the query's error. *)
Theorem fallback_only_after_failure (b : B) :
  single_fallback_hop GetVendorWallets "get_all_vendor_wallets" "vendor_wallets" b ∧
  single_fallback_hop GetDriverWallets "get_all_driver_wallets" "driver_wallets" b.
Proof.
  split; apply list_operation_trace; unfold wallet_lists; set_solver.
Qed.

(** C7. [getWalletTransactions("W1", {})] sends one request: the procedure
    [get_wallet_transactions] with wallet id "W1", limit 10, offset 0, and
    [null] for type and status. *)
Theorem getWalletTransactions_defaults (b : B) :
  requests (events (getWalletTransactions (Str "W1") (literal []) (start b)).2) =
  [Rpc "get_wallet_transactions"
     (literal [("p_wallet_id", Str "W1"); ("p_limit", Num 10);
               ("p_offset", Num 0); ("p_type", Null); ("p_status", Null)])].
Proof.
  unfold_ops; unfold_monad; reduce.
  rewrite !get_empty_literal.
  repeat (branch; reduce); reflexivity.
Qed.

(** C8. [chargeVendorWallet("V1", 50)], the description left out, sends
    vendor id "V1", amount 50 and the default description, and returns the
    payload of the reply when the call succeeds. *)
Theorem chargeVendorWallet_default_description (b b1 : B) (resp : Response) :
  serve (Rpc "charge_vendor_wallet"
           (literal [("p_vendor_id", Str "V1"); ("p_amount", Num 50);
                     ("p_description", Str "شحن رصيد")])) b = (resp, b1) →
  truthy (error resp) = false →
  requests (events (chargeVendorWallet (Str "V1") (Num 50) Undefined (start b)).2) =
    [Rpc "charge_vendor_wallet"
       (literal [("p_vendor_id", Str "V1"); ("p_amount", Num 50);
                 ("p_description", Str "شحن رصيد")])] ∧
  (chargeVendorWallet (Str "V1") (Num 50) Undefined (start b)).1 = Returned (data resp).
Proof.
  intros Hcall Hok.
  unfold_ops; unfold_monad; reduce. unfold default_description.
  rewrite Hcall; reduce. rewrite Hok. split; reflexivity.
Qed.

(** C9. In [getWalletTransactions], an option that is present but falsy
    (limit 0, say) is sent as its default: 10 for limit, 0 for offset,
    [null] for type and status. *)
Theorem falsy_option_replaced_by_default
    (walletId : Val) (m : gmap string Val) (opt par : string) (dflt v : Val) (b : B) :
  (opt, par, dflt) ∈ transaction_options →
  m !! opt = Some v →
  truthy v = false →
  ∃ args,
    requests (events (getWalletTransactions walletId (Obj m) (start b)).2) =
      [Rpc "get_wallet_transactions" (Obj args)] ∧
    args !! par = Some dflt.
Proof.
  unfold transaction_options. rewrite !elem_of_cons, elem_of_nil.
  intros Hin Hopt Hfalsy.
  unfold_ops; unfold_monad; reduce; cbn [get].
  repeat (branch; reduce).
  all: cbn [app requests omap]; unfold literal; cbn [foldl fst snd].
  all: eexists; (split; [reflexivity |]).
  all: destruct Hin as [[= -> -> ->] | [[= -> -> ->] | [[= -> -> ->] | [[= -> -> ->] | []]]]].
  all: rewrite Hopt; cbn [from_option id]; rewrite (or_falsy _ _ Hfalsy).
  all: by simplify_map_eq.
Qed.

(** C10. When the settings document is fetched and its settings have no
    [payment] section, [getPaymentSettings] returns the empty object. *)
Theorem getPaymentSettings_without_payment
    (b b1 : B) (r : Response) (row m : gmap string Val) :
  serve (SelectSingle "app_settings" "settings") b = (r, b1) →
  truthy (error r) = false →
  data r = Obj row →
  row !! "settings" = Some (Obj m) →
  m !! "payment" = None →
  (getPaymentSettings (start b)).1 = Returned (Obj ∅).
Proof.
  intros Hfetch Hok Hdata Hsettings Hnone.
  unfold_ops; unfold_monad; reduce. rewrite Hfetch; reduce. rewrite Hok.
  rewrite Hdata, (get_field _ _ _ Hsettings), (get_missing _ _ Hnone).
  reflexivity.
Qed.

End Generic.

(** ** Runs on the sample data *)

Import Scripted Store.

(** On the table store the fetched data is the row cut down to its
    [settings] column, so the filter of the write is [undefined] whatever the
    identifier of the row. *)
Lemma store_write_filter (tables : Tables) (row : Row) (settings current : Val) :
  tables !! "app_settings" = Some [row] →
  row !! "settings" = Some current →
  requests (events (updatePaymentSettings settings (start tables)).2) =
    [SelectSingle "app_settings" "settings";
     UpdateEq "app_settings"
       (literal [("settings", Obj (<["payment" := settings]> (spread current)))])
       "id" Undefined].
Proof.
  intros Htable Hcurrent.
  rewrite (updatePaymentSettings_requests settings current tables tables
             {| data := Obj (project "settings" row); error := Null |}
             (project "settings" row)).
  - by rewrite project_other_column.
  - unfold serve, store. by rewrite Htable.
  - reflexivity.
  - reflexivity.
  - unfold project. cbn [String.eqb Ascii.eqb Bool.eqb]. rewrite Hcurrent.
    apply lookup_singleton_eq.
Qed.

Lemma updatePaymentSettings_replaces_payment_only_witness :
  ∃ written key,
    requests (events (updatePaymentSettings Example.new_payment
                        (start Example.deployment)).2) =
      [SelectSingle "app_settings" "settings";
       UpdateEq "app_settings" (literal [("settings", Obj written)]) "id" key] ∧
    written = <["payment" := Example.new_payment]> Example.settings ∧
    written !! "payment" = Some Example.new_payment ∧
    (∀ section, section ≠ "payment" → written !! section = Example.settings !! section).
Proof.
  apply (updatePaymentSettings_replaces_payment_only
           Example.new_payment Example.deployment Example.deployment
           {| data := Obj {[ "settings" := Obj Example.settings ]}; error := Null |}
           {[ "settings" := Obj Example.settings ]} Example.settings).
  - reflexivity.
  - reflexivity.
  - reflexivity.
  - reflexivity.
Defined.

(** The persisted settings of the specification's example, as sent. *)
Example settings_example_written :
  <["payment" := Example.new_payment]> Example.settings =
  {[ "a" := Num 1; "payment" := literal [("y", Num 2)] ]}.
Proof. reflexivity. Qed.

(** C2. The settings row has identifier 1; [updatePaymentSettings] selects
    only the column [settings], filters its write on [undefined], returns
    [true], and leaves the store as it was. *)
Theorem updatePaymentSettings_filter_not_document_id :
  Example.document !! "id" = Some (Num 1) ∧
  requests (events (updatePaymentSettings Example.new_payment
                      (start Example.deployment)).2) =
    [SelectSingle "app_settings" "settings";
     UpdateEq "app_settings"
       (literal [("settings",
                  Obj (<["payment" := Example.new_payment]> Example.settings))])
       "id" Undefined] ∧
  (updatePaymentSettings Example.new_payment (start Example.deployment)).1 =
    Returned (Bool true) ∧
  backend (updatePaymentSettings Example.new_payment (start Example.deployment)).2 =
    Example.deployment.
Proof. repeat split. Qed.

Lemma fallback_rows_returned_witness :
  (GetVendorWallets, "get_all_vendor_wallets", "vendor_wallets") ∈ wallet_lists ∧
  (invoke GetVendorWallets (start Example.deployment)).1 =
    Returned (Arr [Obj Example.wallet]).
Proof.
  split; [apply list_elem_of_here |].
  apply (fallback_rows_returned GetVendorWallets "get_all_vendor_wallets"
           "vendor_wallets" Example.deployment (list_elem_of_here _ _)).
  - reflexivity.
  - reflexivity.
  - reflexivity.
Defined.

(** C4, as stated, fails: the procedure call of [getVendorWallets] succeeds
    with the payload [null], and the operation returns [[]]. *)
Lemma getVendorWallets_null_payload_replaced :
  head (exchanges (events (invoke GetVendorWallets (start [ok Null])).2)) =
    Some (Rpc "get_all_vendor_wallets" Undefined, ok Null) ∧
  truthy (error (ok Null)) = false ∧
  (invoke GetVendorWallets (start [ok Null])).1 = Returned (Arr []) ∧
  (invoke GetVendorWallets (start [ok Null])).1 ≠ Returned (data (ok Null)).
Proof. repeat split. discriminate. Qed.

Lemma procedure_payload_returned_witness :
  procedure_backed (GetWalletBalance (Str "U1")) = true ∧
  well_formed (GetWalletBalance (Str "U1")) = true ∧
  ∃ fn args resp,
    head (exchanges (events (invoke (GetWalletBalance (Str "U1")) (start [ok Null])).2)) =
      Some (Rpc fn args, resp) ∧
    (truthy (error resp) = false →
     (invoke (GetWalletBalance (Str "U1")) (start [ok Null])).1 = Returned (data resp)).
Proof.
  split; [reflexivity | split; [reflexivity |]].
  apply (procedure_payload_returned (GetWalletBalance (Str "U1")) [ok Null]);
    reflexivity.
Defined.

Lemma failure_logged_and_rethrown_witness :
  (invoke GetDriverWallets (start Example.deployment)).1 =
    Threw (Cause (error (refusal "42P01"))) ∧
  (∀ payload, (invoke GetDriverWallets (start Example.deployment)).1 ≠ Returned payload) ∧
  last (events (invoke GetDriverWallets (start Example.deployment)).2) =
    Some (Logged "Error fetching driver wallets:" (Cause (error (refusal "42P01")))).
Proof.
  apply (failure_logged_and_rethrown GetDriverWallets Example.deployment
           (Select "driver_wallets" "*") (refusal "42P01")).
  - reflexivity.
  - reflexivity.
Defined.

Lemma chargeVendorWallet_default_description_witness :
  requests (events (chargeVendorWallet (Str "V1") (Num 50) Undefined
                      (start [ok Example.receipt])).2) =
    [Rpc "charge_vendor_wallet"
       (literal [("p_vendor_id", Str "V1"); ("p_amount", Num 50);
                 ("p_description", Str "شحن رصيد")])] ∧
  (chargeVendorWallet (Str "V1") (Num 50) Undefined (start [ok Example.receipt])).1 =
    Returned Example.receipt.
Proof.
  apply (chargeVendorWallet_default_description [ok Example.receipt] []
           (ok Example.receipt)); reflexivity.
Defined.

Lemma falsy_option_replaced_by_default_witness :
  ∃ args,
    requests (events (getWalletTransactions (Str "W1") (literal [("limit", Num 0)])
                        (start [ok (Arr [])])).2) =
      [Rpc "get_wallet_transactions" (Obj args)] ∧
    args !! "p_limit" = Some (Num 10).
Proof.
  change (literal [("limit", Num 0)]) with (Obj (<["limit" := Num 0]> ∅)).
  apply (falsy_option_replaced_by_default (Str "W1") (<["limit" := Num 0]> ∅)
           "limit" "p_limit" (Num 10) (Num 0) [ok (Arr [])]).
  - apply list_elem_of_here.
  - reflexivity.
  - reflexivity.
Defined.

Lemma getPaymentSettings_without_payment_witness :
  (getPaymentSettings
     (start [ok (literal [("settings", literal [("a", Num 1)])])])).1 =
  Returned (Obj ∅).
Proof.
  apply (getPaymentSettings_without_payment
           [ok (literal [("settings", literal [("a", Num 1)])])] []
           (ok (literal [("settings", literal [("a", Num 1)])]))
           (<["settings" := literal [("a", Num 1)]]> ∅) (<["a" := Num 1]> ∅)).
  - reflexivity.
  - reflexivity.
  - reflexivity.
  - reflexivity.
  - reflexivity.
Defined.

(** * Further properties of the operations *)

Section Further.
Context {B : Type} {client : Backend B}.

(** X1. Whatever an operation throws, the last thing it did was to log that
    value under its own label; and a run that returns has logged nothing
    under that label. *)
Theorem thrown_iff_logged_under_label (op : Op) (b : B) :
  match (invoke op (start b)).1 with
  | Threw t =>
      last (events (invoke op (start b)).2) = Some (Logged (label op) t)
  | Returned _ =>
      ∀ t, Logged (label op) t ∉ events (invoke op (start b)).2
  end.
Proof.
  destruct op; run; cbn [app label]; try reflexivity.
  all: intros t Hin.
  all: repeat (apply elem_of_cons in Hin as [Hin | Hin]; [discriminate Hin |]).
  all: by apply elem_of_nil in Hin.
Qed.

(** A property read can only raise [TypeError]. *)
Lemma get_raises v k t : get v k = inl t → t = TypeError.
Proof. destruct v; cbn [get]; congruence. Qed.

Ltac type_errors :=
  repeat match goal with
         | H : get _ _ = inl _ |- _ => apply get_raises in H; subst
         end.

(** X2. An operation throws nothing of its own making: the value thrown is
    either the [error] of the reply to the last request sent, or the
    [TypeError] of a property read on [null] or [undefined]. *)
Theorem thrown_value_origin (op : Op) (b : B) (t : Thrown) :
  (invoke op (start b)).1 = Threw t →
  t = TypeError ∨
  ∃ req resp,
    last (exchanges (events (invoke op (start b)).2)) = Some (req, resp) ∧
    truthy (error resp) = true ∧ t = Cause (error resp).
Proof.
  destruct op; run; cbn [app exchanges omap list_omap last]; intros Hthrown.
  all: type_errors.
  all: try discriminate Hthrown.
  all: injection Hthrown as <-.
  all: first [ by left
             | right; eexists _, _; (split; [reflexivity | split; [assumption | reflexivity]]) ].
Qed.

(** X3. No operation retries: it sends at most [request_budget] requests,
    whatever the backend answers. *)
Theorem requests_within_budget (op : Op) (b : B) :
  (length (requests (events (invoke op (start b)).2)) ≤ request_budget op)%nat.
Proof.
  destruct op; run; cbn [app requests omap list_omap length request_budget]; lia.
Qed.


(** X4. [getWalletTransactions] sends its request unless [options] is
    [null]: then reading [options.limit] raises inside the [try], the
    operation logs the [TypeError] under its label and throws it, and nothing
    is sent. For every other [options] exactly one request goes out. *)
Theorem getWalletTransactions_null_options (walletId options : Val) (b : B) :
  (options = Null ∧
   getWalletTransactions walletId options (start b) =
     (Threw TypeError,
      {| backend := b;
         events := [Logged "Error fetching wallet transactions:" TypeError] |})) ∨
  (options ≠ Null ∧
   ∃ args,
     requests (events (getWalletTransactions walletId options (start b)).2) =
       [Rpc "get_wallet_transactions" (Obj args)]).
Proof.
  destruct options; [right | left | right ..]; (split; [done |]).
  all: unfold_ops; unfold_monad; reduce; rewrite ?get_empty_literal; cbn [get].
  all: repeat (branch; reduce).
  all: cbn [app requests omap]; unfold literal; eexists; reflexivity.
Qed.

(** X5. [getWalletTransactions] with [options] that is neither an object nor
    [null] (omitted, a number, a string, an array, a boolean): none of the
    four options is read from it, and the request carries the wallet id and
    the four defaults. *)
Theorem getWalletTransactions_options_not_an_object (walletId options : Val) (b : B) :
  options ≠ Null →
  (∀ m, options ≠ Obj m) →
  requests (events (getWalletTransactions walletId options (start b)).2) =
  [Rpc "get_wallet_transactions"
     (literal [("p_wallet_id", walletId); ("p_limit", Num 10);
               ("p_offset", Num 0); ("p_type", Null); ("p_status", Null)])].
Proof.
  intros Hnull Hobj.
  destruct options; try (by destruct Hnull); try (by edestruct Hobj).
  all: unfold_ops; unfold_monad; reduce; rewrite ?get_empty_literal; cbn [get].
  all: repeat (branch; reduce); reflexivity.
Qed.

(** X6. In [getWalletTransactions] a truthy option is sent as it is, under
    its procedure parameter. *)
Theorem truthy_option_forwarded
    (walletId : Val) (m : gmap string Val) (opt par : string) (dflt v : Val) (b : B) :
  (opt, par, dflt) ∈ transaction_options →
  m !! opt = Some v →
  truthy v = true →
  ∃ args,
    requests (events (getWalletTransactions walletId (Obj m) (start b)).2) =
      [Rpc "get_wallet_transactions" (Obj args)] ∧
    args !! par = Some v.
Proof.
  unfold transaction_options. rewrite !elem_of_cons, elem_of_nil.
  intros Hin Hopt Htruthy.
  unfold_ops; unfold_monad; reduce; cbn [get].
  repeat (branch; reduce).
  all: cbn [app requests omap]; unfold literal; cbn [foldl fst snd].
  all: eexists; (split; [reflexivity |]).
  all: destruct Hin as [[= -> -> ->] | [[= -> -> ->] | [[= -> -> ->] | [[= -> -> ->] | []]]]].
  all: rewrite Hopt; cbn [from_option id]; unfold or; rewrite Htruthy.
  all: by simplify_map_eq.
Qed.

(** X7. Whatever the options object holds, the request of
    [getWalletTransactions] has exactly the five procedure parameters, the
    wallet id is passed as given, and an option the object lacks is sent as
    its default. *)
Theorem getWalletTransactions_parameters (walletId : Val) (m : gmap string Val) (b : B) :
  ∃ args,
    requests (events (getWalletTransactions walletId (Obj m) (start b)).2) =
      [Rpc "get_wallet_transactions" (Obj args)] ∧
    dom args = {[ "p_wallet_id"; "p_limit"; "p_offset"; "p_type"; "p_status" ]} ∧
    args !! "p_wallet_id" = Some walletId ∧
    (∀ opt par dflt, (opt, par, dflt) ∈ transaction_options →
                     m !! opt = None → args !! par = Some dflt).
Proof.
  unfold_ops; unfold_monad; reduce; cbn [get].
  repeat (branch; reduce).
  all: cbn [app requests omap]; unfold literal; cbn [foldl fst snd].
  all: eexists; (split; [reflexivity | split; [| split]]).
  all: try (rewrite !dom_insert_L, dom_empty_L; set_solver).
  all: try (by simplify_map_eq).
  all: unfold transaction_options; intros opt par dflt Hin Hnone.
  all: rewrite !elem_of_cons, elem_of_nil in Hin.
  all: destruct Hin as [[= -> -> ->] | [[= -> -> ->] | [[= -> -> ->] | [[= -> -> ->] | []]]]].
  all: rewrite Hnone; cbn [from_option id]; by simplify_map_eq.
Qed.


(** X8. [getPaymentSettings] returns the [payment] section of the fetched
    settings when it is truthy, and the empty object when it is falsy
    ([null], [false], [0], the empty string). *)
Theorem getPaymentSettings_returns_payment
    (b b1 : B) (r : Response) (row m : gmap string Val) (payment : Val) :
  serve (SelectSingle "app_settings" "settings") b = (r, b1) →
  truthy (error r) = false →
  data r = Obj row →
  row !! "settings" = Some (Obj m) →
  m !! "payment" = Some payment →
  (getPaymentSettings (start b)).1 =
    Returned (if truthy payment then payment else Obj ∅).
Proof.
  intros Hfetch Hok Hdata Hsettings Hpayment.
  unfold_ops; unfold_monad; reduce. rewrite Hfetch; reduce. rewrite Hok.
  rewrite Hdata, (get_field _ _ _ Hsettings), (get_field _ _ _ Hpayment).
  unfold or. by destruct (truthy payment).
Qed.

(** X9. [getPaymentSettings] does not default a missing settings column:
    when the fetch succeeds but the data is [null], or the row has no
    [settings] or a [null] one, the operation logs and throws [TypeError]
    instead of returning the empty object. *)
Theorem getPaymentSettings_without_settings (b b1 : B) (r : Response) :
  serve (SelectSingle "app_settings" "settings") b = (r, b1) →
  truthy (error r) = false →
  data r = Null ∨ data r = Undefined ∨
    (∃ row, data r = Obj row ∧
            (row !! "settings" = None ∨ row !! "settings" = Some Null)) →
  getPaymentSettings (start b) =
    (Threw TypeError,
     {| backend := b1;
        events := [Exchange (SelectSingle "app_settings" "settings") r;
                   Logged "Error fetching payment settings:" TypeError] |}).
Proof.
  intros Hfetch Hok Hdata.
  unfold_ops; unfold_monad; reduce. rewrite Hfetch; reduce. rewrite Hok.
  destruct Hdata as [-> | [-> | (row & -> & [Hrow | Hrow])]]; try reflexivity.
  - by rewrite (get_missing _ _ Hrow).
  - by rewrite (get_field _ _ _ Hrow).
Qed.

(** X10. [updatePaymentSettings] never writes blind: a write request is in
    its trace only if the fetch was answered without error and with data
    that is neither [null] nor [undefined]. *)
Theorem updatePaymentSettings_writes_only_after_fetch
    (settings : Val) (b : B) (req : Request) :
  req ∈ requests (events (updatePaymentSettings settings (start b)).2) →
  is_write req = true →
  let r := (serve (SelectSingle "app_settings" "settings") b).1 in
  truthy (error r) = false ∧ data r ≠ Null ∧ data r ≠ Undefined.
Proof.
  unfold_ops; unfold_monad; reduce.
  destruct (serve (SelectSingle _ _) b) as [r b1] eqn:Hfetch; reduce.
  destruct (truthy (error r)) eqn:Hok; reduce.
  all: destruct (data r) eqn:Hdata; cbn [get].
  all: repeat (branch; reduce).
  all: cbn [app requests omap list_omap]; intros Hin Hwrite.
  all: repeat (apply elem_of_cons in Hin as [-> | Hin]; [try discriminate Hwrite |]).
  all: try (by apply elem_of_nil in Hin).
  all: by repeat split.
Qed.

(** X11. [updatePaymentSettings] returns only [true], and only after a
    write on [app_settings] filtered on [id] was answered without error:
    its two requests are then the read and that write. *)
Theorem updatePaymentSettings_true_after_write (settings v : Val) (b : B) :
  (updatePaymentSettings settings (start b)).1 = Returned v →
  v = Bool true ∧
  ∃ fetched values key resp,
    exchanges (events (updatePaymentSettings settings (start b)).2) =
      [(SelectSingle "app_settings" "settings", fetched);
       (UpdateEq "app_settings" values "id" key, resp)] ∧
    truthy (error fetched) = false ∧
    truthy (error resp) = false.
Proof.
  run; cbn [app exchanges omap list_omap]; intros Hret; try discriminate Hret.
  injection Hret as <-. split; [reflexivity |].
  eexists _, _, _, _. by repeat split.
Qed.

(** X12. [updatePaymentSettings] does default a missing settings column:
    when the fetched row has no [settings], or a [null] one, the write
    carries settings made of the new [payment] section alone. *)
Theorem updatePaymentSettings_without_settings
    (settings : Val) (b b1 : B) (cur : Response) (row : gmap string Val) :
  serve (SelectSingle "app_settings" "settings") b = (cur, b1) →
  truthy (error cur) = false →
  data cur = Obj row →
  row !! "settings" = None ∨ row !! "settings" = Some Null →
  requests (events (updatePaymentSettings settings (start b)).2) =
    [SelectSingle "app_settings" "settings";
     UpdateEq "app_settings"
       (literal [("settings", literal [("payment", settings)])])
       "id" (default Undefined (row !! "id"))].
Proof.
  intros Hfetch Hok Hdata Hrow.
  unfold_ops; unfold_monad; reduce. rewrite Hfetch; reduce. rewrite Hok.
  rewrite Hdata.
  destruct Hrow as [Hrow | Hrow];
    [rewrite (get_missing _ _ Hrow) | rewrite (get_field _ _ _ Hrow)].
  all: rewrite get_obj; cbn [spread].
  all: repeat (branch; reduce); reflexivity.
Qed.


(** X13. Both charge operations send a description that was passed,
    whatever it is ([null] and the empty string included): the default is
    used for an omitted description only, not for a falsy one. *)
Theorem charge_description_forwarded (id amount description : Val) (b : B) :
  description ≠ Undefined →
  requests (events (chargeVendorWallet id amount description (start b)).2) =
    [Rpc "charge_vendor_wallet"
       (literal [("p_vendor_id", id); ("p_amount", amount);
                 ("p_description", description)])] ∧
  requests (events (chargeDriverWallet id amount description (start b)).2) =
    [Rpc "charge_driver_wallet"
       (literal [("p_driver_id", id); ("p_amount", amount);
                 ("p_description", description)])].
Proof.
  intros Hgiven.
  assert (Hparam : param description default_description = description)
    by (by destruct description).
  split; unfold_ops; unfold_monad; rewrite Hparam; reduce.
  all: repeat (branch; reduce); reflexivity.
Qed.

(** X14. Both charge operations, the description left out, send the id and
    the amount they were given and the default description, and return the
    payload of a reply without error. *)
Theorem charge_default_description (id amount : Val) (b : B) :
  let vendor := Rpc "charge_vendor_wallet"
                  (literal [("p_vendor_id", id); ("p_amount", amount);
                            ("p_description", Str "شحن رصيد")]) in
  let driver := Rpc "charge_driver_wallet"
                  (literal [("p_driver_id", id); ("p_amount", amount);
                            ("p_description", Str "شحن رصيد")]) in
  exchanges (events (chargeVendorWallet id amount Undefined (start b)).2) =
    [(vendor, (serve vendor b).1)] ∧
  exchanges (events (chargeDriverWallet id amount Undefined (start b)).2) =
    [(driver, (serve driver b).1)] ∧
  (truthy (error (serve vendor b).1) = false →
   (chargeVendorWallet id amount Undefined (start b)).1 =
     Returned (data (serve vendor b).1)) ∧
  (truthy (error (serve driver b).1) = false →
   (chargeDriverWallet id amount Undefined (start b)).1 =
     Returned (data (serve driver b).1)).
Proof.
  cbv zeta. unfold_ops; unfold_monad; reduce. unfold default_description.
  repeat split.
  all: repeat (branch; reduce); try reflexivity.
  all: intros Hok; congruence.
Qed.

(** X15. The operations that end in [|| []] or [|| {}] never return a
    falsy value: [getVendorWallets], [getDriverWallets] and
    [getPaymentSettings] return something truthy or throw. *)
Theorem normalised_result_truthy (op : Op) (b : B) (v : Val) :
  normalises_result op = true →
  (invoke op (start b)).1 = Returned v →
  truthy v = true.
Proof.
  intros Hop.
  destruct op; try discriminate Hop.
  all: run; intros Hret; try discriminate Hret.
  all: injection Hret as <-; unfold or.
  all: match goal with |- truthy (if truthy ?x then _ else _) = true =>
         destruct (truthy x) eqn:?; [assumption | reflexivity] end.
Qed.




(** X17. A list operation throws only after both of its paths failed: the
    procedure call and the direct query were each answered with an error,
    and what is thrown is the error of the query; the error of the procedure
    is logged, never thrown. *)
Theorem list_operation_throws_second_error
    (op : Op) (fn table : string) (b : B) (t : Thrown) :
  (op, fn, table) ∈ wallet_lists →
  (invoke op (start b)).1 = Threw t →
  ∃ r q,
    exchanges (events (invoke op (start b)).2) =
      [(Rpc fn Undefined, r); (Select table "*", q)] ∧
    truthy (error r) = true ∧
    truthy (error q) = true ∧
    t = Cause (error q) ∧
    logs (events (invoke op (start b)).2) =
      [("Error using RPC function:", Cause (error r)); (label op, Cause (error q))].
Proof.
  intros Hin. pose proof (list_operation_trace _ _ _ b Hin) as Hrun.
  unfold single_fallback_hop in Hrun. cbv zeta in Hrun.
  destruct (truthy (error (serve (Rpc fn Undefined) b).1)) eqn:Hr.
  - destruct (truthy (error _)) eqn:Hq in Hrun; destruct Hrun as [-> ->];
      intros Hthrown; [| discriminate Hthrown].
    injection Hthrown as <-. by eexists _, _.
  - destruct Hrun as [_ ->]. intros Hthrown. discriminate Hthrown.
Qed.


End Further.

(** ** Runs of the further properties on the sample data *)


Lemma thrown_value_origin_witness :
  Cause (error (refusal "42P01")) = TypeError ∨
  ∃ req resp,
    last (exchanges (events (invoke GetDriverWallets (start Example.deployment)).2)) =
      Some (req, resp) ∧
    truthy (error resp) = true ∧
    Cause (error (refusal "42P01")) = Cause (error resp).
Proof.
  apply (thrown_value_origin GetDriverWallets Example.deployment). reflexivity.
Defined.

Lemma getWalletTransactions_options_not_an_object_witness :
  requests (events (getWalletTransactions (Str "W1") (Num 5) (start [ok (Arr [])])).2) =
  [Rpc "get_wallet_transactions"
     (literal [("p_wallet_id", Str "W1"); ("p_limit", Num 10);
               ("p_offset", Num 0); ("p_type", Null); ("p_status", Null)])].
Proof.
  apply (getWalletTransactions_options_not_an_object (Str "W1") (Num 5) [ok (Arr [])]).
  - discriminate.
  - discriminate.
Defined.

Lemma truthy_option_forwarded_witness :
  ∃ args,
    requests (events (getWalletTransactions (Str "W1")
                        (Obj (<["limit" := Num 25]> ∅)) (start [ok (Arr [])])).2) =
      [Rpc "get_wallet_transactions" (Obj args)] ∧
    args !! "p_limit" = Some (Num 25).
Proof.
  apply (truthy_option_forwarded (Str "W1") (<["limit" := Num 25]> ∅)
           "limit" "p_limit" (Num 10) (Num 25) [ok (Arr [])]).
  - apply list_elem_of_here.
  - reflexivity.
  - reflexivity.
Defined.

Lemma getPaymentSettings_returns_payment_witness :
  (getPaymentSettings (start Example.deployment)).1 = Returned Example.old_payment.
Proof.
  apply (getPaymentSettings_returns_payment Example.deployment Example.deployment
           {| data := Obj {[ "settings" := Obj Example.settings ]}; error := Null |}
           {[ "settings" := Obj Example.settings ]} Example.settings
           Example.old_payment).
  - reflexivity.
  - reflexivity.
  - reflexivity.
  - reflexivity.
  - reflexivity.
Defined.

Lemma getPaymentSettings_without_settings_witness :
  getPaymentSettings (start [ok (Obj (<["id" := Num 1]> ∅))]) =
  (Threw TypeError,
   {| backend := [];
      events := [Exchange (SelectSingle "app_settings" "settings")
                   (ok (Obj (<["id" := Num 1]> ∅)));
                 Logged "Error fetching payment settings:" TypeError] |}).
Proof.
  apply (getPaymentSettings_without_settings [ok (Obj (<["id" := Num 1]> ∅))] []
           (ok (Obj (<["id" := Num 1]> ∅)))).
  - reflexivity.
  - reflexivity.
  - right; right. exists (<["id" := Num 1]> ∅). split; [reflexivity |].
    left. reflexivity.
Defined.

Lemma updatePaymentSettings_writes_only_after_fetch_witness :
  let r := (serve (SelectSingle "app_settings" "settings") Example.deployment).1 in
  truthy (error r) = false ∧ data r ≠ Null ∧ data r ≠ Undefined.
Proof.
  apply (updatePaymentSettings_writes_only_after_fetch Example.new_payment
           Example.deployment
           (UpdateEq "app_settings"
              (literal [("settings",
                         Obj (<["payment" := Example.new_payment]> Example.settings))])
              "id" Undefined)).
  - apply list_elem_of_further, list_elem_of_here.
  - reflexivity.
Defined.

Lemma updatePaymentSettings_true_after_write_witness :
  Bool true = Bool true ∧
  ∃ fetched values key resp,
    exchanges (events (updatePaymentSettings Example.new_payment
                         (start Example.deployment)).2) =
      [(SelectSingle "app_settings" "settings", fetched);
       (UpdateEq "app_settings" values "id" key, resp)] ∧
    truthy (error fetched) = false ∧
    truthy (error resp) = false.
Proof.
  apply (updatePaymentSettings_true_after_write Example.new_payment (Bool true)
           Example.deployment).
  reflexivity.
Defined.

Lemma updatePaymentSettings_without_settings_witness :
  requests (events (updatePaymentSettings Example.new_payment
                      (start [ok (Obj (<["id" := Num 1]> ∅)); ok Null])).2) =
    [SelectSingle "app_settings" "settings";
     UpdateEq "app_settings"
       (literal [("settings", literal [("payment", Example.new_payment)])])
       "id" (Num 1)].
Proof.
  refine (updatePaymentSettings_without_settings Example.new_payment
            [ok (Obj (<["id" := Num 1]> ∅)); ok Null] [ok Null]
            (ok (Obj (<["id" := Num 1]> ∅))) (<["id" := Num 1]> ∅) _ _ _ _).
  - reflexivity.
  - reflexivity.
  - reflexivity.
  - left. reflexivity.
Defined.

Lemma charge_description_forwarded_witness :
  requests (events (chargeVendorWallet (Str "V1") (Num 50) (Str "")
                      (start [ok Example.receipt])).2) =
    [Rpc "charge_vendor_wallet"
       (literal [("p_vendor_id", Str "V1"); ("p_amount", Num 50);
                 ("p_description", Str "")])] ∧
  requests (events (chargeDriverWallet (Str "V1") (Num 50) (Str "")
                      (start [ok Example.receipt])).2) =
    [Rpc "charge_driver_wallet"
       (literal [("p_driver_id", Str "V1"); ("p_amount", Num 50);
                 ("p_description", Str "")])].
Proof.
  apply (charge_description_forwarded (Str "V1") (Num 50) (Str "")
           [ok Example.receipt]).
  discriminate.
Defined.

Lemma normalised_result_truthy_witness :
  normalises_result GetVendorWallets = true ∧
  (invoke GetVendorWallets (start [ok Null])).1 = Returned (Arr []) ∧
  truthy (Arr []) = true.
Proof.
  split; [reflexivity | split; [reflexivity |]].
  apply (normalised_result_truthy GetVendorWallets [ok Null] (Arr []));
    reflexivity.
Defined.


Lemma list_operation_throws_second_error_witness :
  ∃ r q,
    exchanges (events (invoke GetDriverWallets (start Example.deployment)).2) =
      [(Rpc "get_all_driver_wallets" Undefined, r); (Select "driver_wallets" "*", q)] ∧
    truthy (error r) = true ∧
    truthy (error q) = true ∧
    Cause (error (refusal "42P01")) = Cause (error q) ∧
    logs (events (invoke GetDriverWallets (start Example.deployment)).2) =
      [("Error using RPC function:", Cause (error r));
       ("Error fetching driver wallets:", Cause (error q))].
Proof.
  apply (list_operation_throws_second_error GetDriverWallets
           "get_all_driver_wallets" "driver_wallets" Example.deployment).
  - apply list_elem_of_further, list_elem_of_here.
  - reflexivity.
Defined.

